(** * seelogWrapper: the golang-log style facade over the seelog engine

    A shallow embedding of [seelogWrapper/log.go].  The facade keeps one
    package variable of its own ([seelogStaticFuncCallDepth]) and drives
    three pieces of engine state: the engine's static call depth, the
    engine's current logger and the stream of records the engine receives.
    Go's [panic], [os.Exit] and [defer] are modelled by a small result
    monad over that state. *)

From Stdlib Require Import ZArith List String Ascii Bool Lia.
From Stdlib Require Import Strings.Byte DecimalString.
Import ListNotations.

Local Open Scope Z_scope.
Local Open Scope string_scope.

(** ** Go's [int] *)

Module GoInt.

(** [int] is 64 bits wide on the platforms the package targets;
    addition wraps around in two's complement. *)
Definition bits : Z := 64.
Definition min_int : Z := - 2 ^ (bits - 1).
Definition max_int : Z := 2 ^ (bits - 1) - 1.

Definition wrap (z : Z) : Z := (z - min_int) mod 2 ^ bits + min_int.

Definition add (a b : Z) : Z := wrap (a + b).

Definition in_range (z : Z) : Prop := min_int <= z <= max_int.

End GoInt.

(** ** The fragment of package [fmt] the facade relies on *)

Module Fmt.

(** Operands passed as [...interface{}]: the dynamic values this
    development distinguishes. *)
Inductive value : Type :=
| VNil
| VString (s : string)
| VInt (n : Z)
| VBool (b : bool).

(** [reflect.TypeOf(arg).Kind() == reflect.String], false for nil. *)
Definition isString (a : value) : bool :=
  match a with VString _ => true | _ => false end.

(** The operand printed with verb [%v]. *)
Definition printArg (a : value) : string :=
  match a with
  | VNil => "<nil>"
  | VString s => s
  | VInt n => NilZero.string_of_int (Z.to_int n)
  | VBool true => "true"
  | VBool false => "false"
  end.

Definition space : string := " ".
Definition newline : string := String (ascii_of_nat 10) EmptyString.

(** [doPrint]: a space goes between two operands when neither is a
    string.  [first] is [argNum = 0]. *)
Fixpoint doPrint (first prevString : bool) (a : list value) : string :=
  match a with
  | [] => ""
  | arg :: rest =>
      (if negb first && negb (isString arg) && negb prevString
       then space else "")
      ++ printArg arg ++ doPrint false (isString arg) rest
  end.

Definition Sprint (a : list value) : string := doPrint true false a.

(** [doPrintln]: a space always goes between operands, and a newline is
    appended. *)
Fixpoint doPrintln_args (first : bool) (a : list value) : string :=
  match a with
  | [] => ""
  | arg :: rest =>
      (if first then "" else space) ++ printArg arg
      ++ doPrintln_args false rest
  end.

Definition Sprintln (a : list value) : string :=
  doPrintln_args true a ++ newline.

(** The operands rendered with [%v] and separated by single spaces. *)
Definition joinSpaces (a : list value) : string :=
  String.concat space (map printArg a).

(** The part of [Sprintf] that the facade's own format string
    exercises: text is copied, [%%] prints a percent sign and [%v]
    prints the next operand; a missing operand and left-over operands
    are reported the way [fmt] reports them.  Other verbs are outside
    this fragment. *)
Definition typeName (a : value) : string :=
  match a with
  | VNil => "<nil>"
  | VString _ => "string"
  | VInt _ => "int"
  | VBool _ => "bool"
  end.

Definition extraArg (a : value) : string :=
  match a with
  | VNil => "<nil>"
  | _ => typeName a ++ "=" ++ printArg a
  end.

Definition extra (a : list value) : string :=
  match a with
  | [] => ""
  | _ => "%!(EXTRA " ++ String.concat ", " (map extraArg a) ++ ")"
  end.

Fixpoint Sprintf_v (format : string) (a : list value) : string :=
  match format with
  | EmptyString => extra a
  | String "%"%char (String "v"%char rest) =>
      match a with
      | [] => "%!v(MISSING)" ++ Sprintf_v rest []
      | x :: a' => printArg x ++ Sprintf_v rest a'
      end
  | String "%"%char (String "%"%char rest) => "%" ++ Sprintf_v rest a
  | String c rest => String c (Sprintf_v rest a)
  end.

End Fmt.

Import Fmt.

(** ** Records, call stacks and the state the facade touches *)

(** seelog's [LogLevel] constants for the six severities. *)
Inductive LogLevel : Type :=
| TraceLvl | DebugLvl | InfoLvl | WarnLvl | ErrorLvl | CriticalLvl.

(** A stack frame as [runtime.Caller] describes it: the function that is
    running and the line it is currently executing (its call site). *)
Record Frame : Type := mkFrame {
  frFile : string;
  frFunc : string;
  frLine : Z
}.

Definition wrapperFile : string := "seelogWrapper/log.go".

(** The frame of facade function [fn] while it executes line [line] of
    [log.go]. *)
Definition here (fn : string) (line : Z) : Frame :=
  {| frFile := wrapperFile; frFunc := fn; frLine := line |}.

(** How a Go function call ends: it returns, it unwinds with a panic
    value, or the process is gone ([os.Exit]). *)
Inductive Result (A : Type) : Type :=
| Ok (a : A)
| Panicking (v : string)
| Exiting (code : Z).

Arguments Ok {A} a.
Arguments Panicking {A} v.
Arguments Exiting {A} code.

(** Go's [error]: nil or an error carrying a text. *)
Definition error : Type := option string.

Section Facade.

(** Non-nil implementations of [log.LoggerInterface]; an interface value
    is an [option Logger], [None] being nil. *)
Context {Logger : Type}.

(** The engine's constructor of a logger from configuration bytes and its
    installer of a logger as the current one.  Both live in package
    [seelog]; the facade only calls them.  [ReplaceLogger candidate
    current] gives the logger that is current afterwards and the error
    returned. *)
Variable LoggerFromConfigAsBytes : list byte -> option Logger * error.
Variable ReplaceLogger :
  option Logger -> option Logger -> option Logger * error.

(** [fmt.Sprintf]. *)
Variable Sprintf : string -> list value -> string.

(** What the engine received for one log call. *)
Record LogRecord : Type := mkRecord {
  recLevel : LogLevel;
  recMsg : string;
  recDepth : Z;              (* the static call depth in force *)
  recStack : list Frame;     (* callers of the engine function, innermost first *)
  recLogger : option Logger  (* the logger that was current *)
}.

Record State : Type := mkState {
  staticFuncCallDepth : Z;        (* seelog's package variable *)
  Current : option Logger;        (* seelog's current logger *)
  delivered : list LogRecord;     (* records handed to the engine, oldest first *)
  seelogStaticFuncCallDepth : Z   (* the facade's package variable *)
}.

(** *** The monad of facade code *)

Definition M (A : Type) : Type := State -> State * Result A.

Definition ret {A : Type} (a : A) : M A := fun s => (s, Ok a).

Definition bind {A B : Type} (m : M A) (k : A -> M B) : M B :=
  fun s =>
    match m s with
    | (s', Ok a) => k a s'
    | (s', Panicking v) => (s', Panicking v)
    | (s', Exiting c) => (s', Exiting c)
    end.

(** [panic(v)] *)
Definition panic {A : Type} (v : string) : M A :=
  fun s => (s, Panicking v).

(** [os.Exit(code)]: the process ends at once. *)
Definition os_Exit {A : Type} (code : Z) : M A :=
  fun s => (s, Exiting code).

(** [defer d] followed by the rest of the function body: [d] runs when
    the body returns or panics, and does not run when the process
    exits.  A panic raised by [d] replaces the one in flight. *)
Definition defer {A : Type} (d : M unit) (body : M A) : M A :=
  fun s =>
    match body s with
    | (s', Exiting c) => (s', Exiting c)
    | (s', Ok a) =>
        match d s' with
        | (s'', Ok _) => (s'', Ok a)
        | (s'', Panicking v) => (s'', Panicking v)
        | (s'', Exiting c) => (s'', Exiting c)
        end
    | (s', Panicking v) =>
        match d s' with
        | (s'', Ok _) => (s'', Panicking v)
        | (s'', Panicking v') => (s'', Panicking v')
        | (s'', Exiting c) => (s'', Exiting c)
        end
    end.

Notation "x <- c1 ;; c2" := (bind c1 (fun x => c2))
  (at level 61, c1 at next level, right associativity).
Notation "c1 ;; c2" := (bind c1 (fun _ => c2))
  (at level 61, right associativity).

(** Reading and writing the facade's package variable. *)
Definition get_seelogStaticFuncCallDepth : M Z :=
  fun s => (s, Ok (seelogStaticFuncCallDepth s)).

Definition set_seelogStaticFuncCallDepth (d : Z) : M unit :=
  fun s =>
    ({| staticFuncCallDepth := staticFuncCallDepth s;
        Current := Current s;
        delivered := delivered s;
        seelogStaticFuncCallDepth := d |}, Ok tt).

(** *** The engine, as the facade sees it *)

Definition log_GetStaticFuncCallDepth : M Z :=
  fun s => (s, Ok (staticFuncCallDepth s)).

Definition log_SetStaticFuncCallDepth (d : Z) : M unit :=
  fun s =>
    ({| staticFuncCallDepth := d;
        Current := Current s;
        delivered := delivered s;
        seelogStaticFuncCallDepth := seelogStaticFuncCallDepth s |}, Ok tt).

(** Modelled from the spec: package [seelog]'s leveled calls are not part
    of the facade's source.  The engine observes one record per call, at
    the level of the function called, with the static call depth in
    force, on behalf of the current logger. *)
Definition log_observe (lvl : LogLevel) (msg : string) (stk : list Frame)
  : M unit :=
  fun s =>
    ({| staticFuncCallDepth := staticFuncCallDepth s;
        Current := Current s;
        delivered :=
          delivered s ++
          [ {| recLevel := lvl; recMsg := msg;
               recDepth := staticFuncCallDepth s;
               recStack := stk; recLogger := Current s |} ];
        seelogStaticFuncCallDepth := seelogStaticFuncCallDepth s |}, Ok tt).

(** Modelled from the spec: the variadic engine calls join their
    operands by the default concatenation rules ([fmt.Sprint]); the
    formatted ones render with [fmt.Sprintf]. *)
Definition log_Trace stk (v : list value) := log_observe TraceLvl (Sprint v) stk.
Definition log_Debug stk (v : list value) := log_observe DebugLvl (Sprint v) stk.
Definition log_Info stk (v : list value) := log_observe InfoLvl (Sprint v) stk.
Definition log_Warn stk (v : list value) := log_observe WarnLvl (Sprint v) stk.
Definition log_Error stk (v : list value) := log_observe ErrorLvl (Sprint v) stk.
Definition log_Critical stk (v : list value) := log_observe CriticalLvl (Sprint v) stk.

Definition log_Tracef stk format (p : list value) := log_observe TraceLvl (Sprintf format p) stk.
Definition log_Debugf stk format (p : list value) := log_observe DebugLvl (Sprintf format p) stk.
Definition log_Infof stk format (p : list value) := log_observe InfoLvl (Sprintf format p) stk.
Definition log_Warnf stk format (p : list value) := log_observe WarnLvl (Sprintf format p) stk.
Definition log_Errorf stk format (p : list value) := log_observe ErrorLvl (Sprintf format p) stk.
Definition log_Criticalf stk format (p : list value) := log_observe CriticalLvl (Sprintf format p) stk.

Definition log_ReplaceLogger (logger : option Logger) : M error :=
  fun s =>
    let (cur', err) := ReplaceLogger logger (Current s) in
    ({| staticFuncCallDepth := staticFuncCallDepth s;
        Current := cur';
        delivered := delivered s;
        seelogStaticFuncCallDepth := seelogStaticFuncCallDepth s |}, Ok err).

(** Where the engine places the caller of a record.  [engineBase] is
    the static call depth at which the engine reports the function that
    called its package-level entry point; each unit above it skips one
    more frame (the glossary's skip-depth). *)
Inductive Location : Type :=
| InsideEngine
| At (f : Frame)
| BeyondStack.

Definition reportedLocation (engineBase : Z) (r : LogRecord) : Location :=
  if (recDepth r <? engineBase)%Z then InsideEngine
  else match nth_error (recStack r) (Z.to_nat (recDepth r - engineBase)) with
       | Some f => At f
       | None => BeyondStack
       end.

(** *** The facade: APIs originally provided by seelog *)

(** Every function takes [stk], the stack of its callers, innermost
    first: the head is the frame the call was made from. *)

Definition Tracef stk format (params : list value) : M unit :=
  log_Tracef (here "Tracef" 74 :: stk) format params.

Definition Debugf stk format (params : list value) : M unit :=
  log_Debugf (here "Debugf" 78 :: stk) format params.

Definition Infof stk format (params : list value) : M unit :=
  log_Infof (here "Infof" 82 :: stk) format params.

Definition Warnf stk format (params : list value) : M unit :=
  log_Warnf (here "Warnf" 86 :: stk) format params.

Definition Errorf stk format (params : list value) : M unit :=
  log_Errorf (here "Errorf" 90 :: stk) format params.

Definition Criticalf stk format (params : list value) : M unit :=
  log_Criticalf (here "Criticalf" 94 :: stk) format params.

Definition Trace stk (v : list value) : M unit :=
  log_Trace (here "Trace" 98 :: stk) v.

Definition Debug stk (v : list value) : M unit :=
  log_Debug (here "Debug" 102 :: stk) v.

Definition Info stk (v : list value) : M unit :=
  log_Info (here "Info" 106 :: stk) v.

Definition Warn stk (v : list value) : M unit :=
  log_Warn (here "Warn" 110 :: stk) v.

Definition Error stk (v : list value) : M unit :=
  log_Error (here "Error" 114 :: stk) v.

(** As in the source, the body calls [log.Error]. *)
Definition Critical stk (v : list value) : M unit :=
  log_Error (here "Critical" 118 :: stk) v.

(** *** The facade: APIs in the style of golang's log *)

Definition panicMessage : string :=
  "Panic in seelogWrapper, check last critical log for reason.!".

Definition Fatal stk (v : list value) : M unit :=
  base <- get_seelogStaticFuncCallDepth ;;
  log_SetStaticFuncCallDepth (GoInt.add base 2) ;;
  restore <- get_seelogStaticFuncCallDepth ;;
  defer (log_SetStaticFuncCallDepth restore)
    (log_Error (here "Fatal" 153 :: stk) v ;;
     os_Exit 1).

Definition Panic stk (v : list value) : M unit :=
  base <- get_seelogStaticFuncCallDepth ;;
  log_SetStaticFuncCallDepth (GoInt.add base 2) ;;
  restore <- get_seelogStaticFuncCallDepth ;;
  defer (log_SetStaticFuncCallDepth restore)
    (log_Critical (here "Panic" 161 :: stk) v ;;
     panic panicMessage).

Definition Print stk (v : list value) : M unit :=
  base <- get_seelogStaticFuncCallDepth ;;
  log_SetStaticFuncCallDepth (GoInt.add base 2) ;;
  restore <- get_seelogStaticFuncCallDepth ;;
  defer (log_SetStaticFuncCallDepth restore)
    (log_Info (here "Print" 168 :: stk) v).

Definition Println stk (v : list value) : M unit :=
  base <- get_seelogStaticFuncCallDepth ;;
  log_SetStaticFuncCallDepth (GoInt.add base 2) ;;
  restore <- get_seelogStaticFuncCallDepth ;;
  defer (log_SetStaticFuncCallDepth restore)
    (log_Info (here "Println" 174 :: stk) [VString (Sprintln v)]).

Definition Fatalf stk format (v : list value) : M unit :=
  base <- get_seelogStaticFuncCallDepth ;;
  log_SetStaticFuncCallDepth (GoInt.add base 2) ;;
  restore <- get_seelogStaticFuncCallDepth ;;
  defer (log_SetStaticFuncCallDepth restore)
    (let s := Sprintf format v in
     Fatal (here "Fatalf" 182 :: stk) [VString s]).

Definition Panicf stk format (v : list value) : M unit :=
  base <- get_seelogStaticFuncCallDepth ;;
  log_SetStaticFuncCallDepth (GoInt.add base 2) ;;
  restore <- get_seelogStaticFuncCallDepth ;;
  defer (log_SetStaticFuncCallDepth restore)
    (let s := Sprintf format v in
     Panic (here "Panicf" 190 :: stk) [VString s]).

Definition Printf stk format (v : list value) : M unit :=
  base <- get_seelogStaticFuncCallDepth ;;
  log_SetStaticFuncCallDepth (GoInt.add base 2) ;;
  restore <- get_seelogStaticFuncCallDepth ;;
  defer (log_SetStaticFuncCallDepth restore)
    (let s := Sprintf format v in
     Print (here "Printf" 197 :: stk) [VString s]).

Definition replaceFormat : string :=
  "Can not replace default logger with new config: %v".

(** [[]byte(config)] *)
Definition bytes_of (config : string) : list byte :=
  list_byte_of_string config.

Definition SetLoggerConfig stk (config : string) : M unit :=
  let (logger, _) := LoggerFromConfigAsBytes (bytes_of config) in
  err <- log_ReplaceLogger logger ;;
  match err with
  | Some _ => Panicf (here "SetLoggerConfig" 208 :: stk) replaceFormat [VString config]
  | None => ret tt
  end.

(** The raw string literal [c] of [init], line breaks and indentation
    included. *)
Definition dquote : string := String (ascii_of_nat 34) EmptyString.

Definition init_format : string := "%Ns [%LEVEL] (%File:%Func) %Msg".

Definition init_c : string :=
  "<seelog type=" ++ dquote ++ "sync" ++ dquote ++ ">" ++ newline ++
  "          <outputs formatid=" ++ dquote ++ "ccmp" ++ dquote ++ ">" ++ newline ++
  "            <console />" ++ newline ++
  "          </outputs>" ++ newline ++
  "          <formats>" ++ newline ++
  "            <format id=" ++ dquote ++ "ccmp" ++ dquote ++
               " format=" ++ dquote ++ init_format ++ dquote ++ "/>" ++ newline ++
  "          </formats>" ++ newline ++
  "        </seelog>".

Definition init stk : M unit :=
  d <- log_GetStaticFuncCallDepth ;;
  set_seelogStaticFuncCallDepth d ;;
  base <- get_seelogStaticFuncCallDepth ;;
  log_SetStaticFuncCallDepth (GoInt.add base 1) ;;
  SetLoggerConfig (here "init" 60 :: stk) init_c.

End Facade.

(** ** The level table of the specification *)

(** The severities the facade exposes. *)
Inductive FacadeLevel : Type :=
| LTrace | LDebug | LInfo | LWarn | LError | LCritical
| LPrint | LFatal | LPanic.

(** The table as the specification words it: Print, Fatal and Panic go to
    Info, Error and Critical; the six engine severities map to
    themselves. *)
Definition LevelMapping (L : FacadeLevel) : LogLevel :=
  match L with
  | LTrace => TraceLvl
  | LDebug => DebugLvl
  | LInfo => InfoLvl
  | LWarn => WarnLvl
  | LError => ErrorLvl
  | LCritical => CriticalLvl
  | LPrint => InfoLvl
  | LFatal => ErrorLvl
  | LPanic => CriticalLvl
  end.

Section Entries.

Context {Logger : Type}.
Variable Sprintf : string -> list value -> string.

(** The variadic facade function of each level. *)
Definition facadeCall (L : FacadeLevel) stk (v : list value)
  : M (Logger := Logger) unit :=
  match L with
  | LTrace => Trace stk v
  | LDebug => Debug stk v
  | LInfo => Info stk v
  | LWarn => Warn stk v
  | LError => Error stk v
  | LCritical => Critical stk v
  | LPrint => Print stk v
  | LFatal => Fatal stk v
  | LPanic => Panic stk v
  end.

(** The formatted facade function of each level. *)
Definition facadeCallf (L : FacadeLevel) stk format (v : list value)
  : M (Logger := Logger) unit :=
  match L with
  | LTrace => Tracef Sprintf stk format v
  | LDebug => Debugf Sprintf stk format v
  | LInfo => Infof Sprintf stk format v
  | LWarn => Warnf Sprintf stk format v
  | LError => Errorf Sprintf stk format v
  | LCritical => Criticalf Sprintf stk format v
  | LPrint => Printf Sprintf stk format v
  | LFatal => Fatalf Sprintf stk format v
  | LPanic => Panicf Sprintf stk format v
  end.

(** The entry points that reach the engine through a second facade
    function. *)
Inductive Layered : Type := ViaFatal | ViaPanic | ViaPrint.

Definition callLayered (e : Layered) stk format (v : list value)
  : M (Logger := Logger) unit :=
  match e with
  | ViaFatal => Fatalf Sprintf stk format v
  | ViaPanic => Panicf Sprintf stk format v
  | ViaPrint => Printf Sprintf stk format v
  end.

(** The entry points that set the static call depth and come back to
    their caller, by return or by panic. *)
Inductive Scoped : Type :=
| SPrint | SPrintln | SPrintf | SPanic | SPanicf.

Definition callScoped (e : Scoped) stk format (v : list value)
  : M (Logger := Logger) unit :=
  match e with
  | SPrint => Print stk v
  | SPrintln => Println stk v
  | SPrintf => Printf Sprintf stk format v
  | SPanic => Panic stk v
  | SPanicf => Panicf Sprintf stk format v
  end.

End Entries.

(** ** Reading a configuration text *)

Module ConfigText.

(** How many times [needle] occurs in [hay]. *)
Fixpoint occurrences (needle hay : string) : nat :=
  match hay with
  | EmptyString => 0
  | String _ rest =>
      ((if String.prefix needle hay then 1 else 0)
       + occurrences needle rest)%nat
  end.

Definition isLetter (c : ascii) : bool :=
  let n := nat_of_ascii c in
  ((65 <=? n) && (n <=? 90) || (97 <=? n) && (n <=? 122))%nat.

Definition isPercent (c : ascii) : bool :=
  (nat_of_ascii c =? 37)%nat.

(** The verbs of a seelog format string, in order: each is a percent
    sign followed by letters.  [pending] is the verb being read. *)
Fixpoint verbsFrom (pending : option string) (format : string)
  : list string :=
  match format with
  | EmptyString =>
      match pending with Some verb => [verb] | None => [] end
  | String c rest =>
      let next :=
        if isPercent c then verbsFrom (Some "") rest
        else verbsFrom None rest in
      match pending with
      | Some verb =>
          if isLetter c
          then verbsFrom (Some (verb ++ String c "")) rest
          else verb :: next
      | None => next
      end
  end.

Definition formatVerbs (format : string) : list string :=
  verbsFrom None format.

End ConfigText.

(** ** The statements that are checked against the code *)

Section Statements.

Context {Logger : Type}.
Variable LoggerFromConfigAsBytes : list byte -> option Logger * error.
Variable ReplaceLogger :
  option Logger -> option Logger -> option Logger * error.
Variable Sprintf : string -> list value -> string.

(** [part] occurs somewhere in [text]. *)
Definition includes (text part : string) : Prop :=
  exists before after, text = before ++ part ++ after.

(** What [fmt.Sprintf] makes of [replaceFormat] and one string operand. *)
Definition replaceDiagnostic (config : string) : string :=
  "Can not replace default logger with new config: " ++ config.

(** The configuration text fails: its construction returns an error, or
    the engine refuses to install what was constructed. *)
Definition constructionFails (config : string) : Prop :=
  snd (LoggerFromConfigAsBytes (bytes_of config)) <> None.

Definition replacementFails (config : string) (s : State) : Prop :=
  snd (ReplaceLogger (fst (LoggerFromConfigAsBytes (bytes_of config)))
         (Current s)) <> None.

(** Modelled from the spec: installing a logger is an atomic swap that can
    fail.  The engine either makes the candidate the current logger and
    returns no error, or returns an error and leaves the current logger in
    place; nothing in between is ever current. *)
Definition atomicReplace : Prop :=
  forall candidate current : option Logger,
    ReplaceLogger candidate current = (candidate, None) \/
    exists refusal, ReplaceLogger candidate current = (current, Some refusal).

(** Modelled from the spec: the engine rejects malformed configuration.
    Whatever a failed construction returns beside its error (nil, in
    seelog), the installer refuses it with an error. *)
Definition rejectsFailedConstruction : Prop :=
  forall (data : list byte) (current : option Logger),
    snd (LoggerFromConfigAsBytes data) <> None ->
    snd (ReplaceLogger (fst (LoggerFromConfigAsBytes data)) current) <> None.

(** [Panic] logs one Critical record with the joined message and panics
    with a message other than the logged one. *)
Definition panicSignalDistinct stk (v : list value) (s : State (Logger := Logger))
  : Prop :=
  exists r carried,
    delivered (fst (Panic stk v s)) = (delivered s ++ [r])%list /\
    recLevel r = CriticalLvl /\
    recMsg r = Sprint v /\
    snd (Panic stk v s) = Panicking carried /\
    carried <> recMsg r.

End Statements.

(** ** Two small engines to run the facade on *)

Module Engines.

(** A logger is known by the configuration text it was built from. *)
Definition Logger : Type := string.

(** Construction succeeds on a text that opens a [seelog] element and
    fails, returning nil and an error, on anything else. *)
Definition fromBytes (data : list byte) : option Logger * error :=
  let text := string_of_list_byte data in
  if String.prefix "<seelog" text
  then (Some text, None)
  else (None, Some "invalid config").

(** Installs a logger, and refuses nil without touching the current
    one. *)
Definition replaceStrict (candidate current : option Logger)
  : option Logger * error :=
  match candidate with
  | Some l => (Some l, None)
  | None => (current, Some "logger can not be nil")
  end.

(** Installs whatever it is handed, nil included. *)
Definition replaceLenient (candidate current : option Logger)
  : option Logger * error :=
  (candidate, None).

(** The process before [init]: the engine at its own default depth with
    its built-in logger, the facade's variable at Go's zero value. *)
Definition start : State (Logger := Logger) :=
  {| staticFuncCallDepth := 3;
     Current := Some "builtin";
     delivered := [];
     seelogStaticFuncCallDepth := 0 |}.

Definition mainFrame : Frame :=
  {| frFile := "main.go"; frFunc := "main"; frLine := 6 |}.

Definition runtimeFrame : Frame :=
  {| frFile := "runtime/proc.go"; frFunc := "main"; frLine := 250 |}.

(** The process once [init] has run on the strict engine. *)
Definition afterInit : State (Logger := Logger) :=
  fst (init fromBytes replaceStrict Sprintf_v [runtimeFrame] start).

End Engines.

(** ** All the logging entry points *)

Section Groupings.

Context {Logger : Type}.
Variable Sprintf : string -> list value -> string.

(** The nineteen logging functions of the facade: the variadic and the
    formatted function of each level, and [Println]. *)
Inductive Entry : Type :=
| Variadic (L : FacadeLevel)
| Formatted (L : FacadeLevel)
| Line.

Definition callEntry (e : Entry) stk format (v : list value)
  : M (Logger := Logger) unit :=
  match e with
  | Variadic L => facadeCall L stk v
  | Formatted L => facadeCallf Sprintf L stk format v
  | Line => Println stk v
  end.

(** The levels whose functions only forward to the engine function of the
    same kind, without touching the static call depth. *)
Definition forwards (L : FacadeLevel) : bool :=
  match L with
  | LPrint | LFatal | LPanic => false
  | _ => true
  end.

(** The functions in the style of golang's log, which set the static call
    depth themselves. *)
Definition golangStyle (e : Entry) : bool :=
  match e with
  | Variadic L | Formatted L => negb (forwards L)
  | Line => true
  end.

(** The golang-style functions that call the engine from their own
    body. *)
Inductive Direct : Type := DFatal | DPanic | DPrint | DPrintln.

Definition callDirect (e : Direct) stk (v : list value)
  : M (Logger := Logger) unit :=
  match e with
  | DFatal => Fatal stk v
  | DPanic => Panic stk v
  | DPrint => Print stk v
  | DPrintln => Println stk v
  end.

End Groupings.

(** An engine that builds no logger at all. *)
Module BareEngine.

Definition fromBytes (data : list byte) : option Engines.Logger * error :=
  (None, Some "configuration is not supported").

End BareEngine.

(** * Properties *)

Local Open Scope Z_scope.
Local Open Scope list_scope.

(** ** Arithmetic of [int] *)

Lemma wrap_in_range z : GoInt.in_range z -> GoInt.wrap z = z.
Proof.
  unfold GoInt.in_range, GoInt.wrap, GoInt.min_int, GoInt.max_int, GoInt.bits.
  intros H. rewrite Z.mod_small; lia.
Qed.

Lemma add_no_overflow a b : GoInt.in_range (a + b) -> GoInt.add a b = a + b.
Proof. apply wrap_in_range. Qed.

Lemma wrap_stays_in_range z : GoInt.in_range (GoInt.wrap z).
Proof.
  unfold GoInt.in_range, GoInt.wrap, GoInt.min_int, GoInt.max_int, GoInt.bits.
  pose proof (Z.mod_pos_bound (z - - 2 ^ (64 - 1)) (2 ^ 64)) as B.
  lia.
Qed.

(** ** Joining operands *)

Lemma append_empty_r (s : string) : (s ++ "")%string = s.
Proof. induction s as [|c s IH]; simpl; [reflexivity | now rewrite IH]. Qed.

Lemma Sprint_single_string (s : string) : Sprint [VString s] = s.
Proof. unfold Sprint; simpl. apply append_empty_r. Qed.

Lemma doPrintln_tail_joinSpaces (rest : list value) :
  forall a,
    (printArg a ++ doPrintln_args false rest)%string = joinSpaces (a :: rest).
Proof.
  induction rest as [|b rest IH]; intros a.
  - unfold joinSpaces; simpl. apply append_empty_r.
  - unfold joinSpaces in *. simpl map. cbn [String.concat].
    cbn [doPrintln_args]. specialize (IH b). simpl map in IH.
    now rewrite IH.
Qed.

Lemma doPrintln_joinSpaces (v : list value) :
  doPrintln_args true v = joinSpaces v.
Proof.
  destruct v as [|a rest]; [reflexivity|].
  cbn [doPrintln_args]. simpl append at 1.
  apply doPrintln_tail_joinSpaces.
Qed.

Lemma Sprintln_joinSpaces (v : list value) :
  Sprintln v = (joinSpaces v ++ newline)%string.
Proof. unfold Sprintln. now rewrite doPrintln_joinSpaces. Qed.

(** Operands that are all strings are concatenated by [Sprint] with
    nothing between them. *)
Lemma Sprint_strings (l : list string) :
  Sprint (map VString l) = String.concat "" l.
Proof.
  unfold Sprint.
  assert (G : forall first prev,
             doPrint first prev (map VString l) = fold_right append "" l).
  { induction l as [|x l IH]; intros first prev; [reflexivity|].
    cbn [map doPrint isString printArg negb andb fold_right].
    rewrite andb_false_r. simpl append at 1. now rewrite IH. }
  rewrite G. clear G.
  induction l as [|x [|y l] IH]; [reflexivity | apply append_empty_r |].
  cbn [fold_right String.concat] in *. now rewrite IH.
Qed.

Section Properties.

Context {Logger : Type}.
Variable LoggerFromConfigAsBytes : list byte -> option Logger * error.
Variable ReplaceLogger :
  option Logger -> option Logger -> option Logger * error.
Variable Sprintf : string -> list value -> string.

Local Abbreviation St := (State (Logger := Logger)).

(** ** What each golang-style function does to the state *)

Lemma Print_eq stk v (s : St) :
  Print stk v s =
  ({| staticFuncCallDepth := seelogStaticFuncCallDepth s;
      Current := Current s;
      delivered :=
        delivered s ++
        [ {| recLevel := InfoLvl; recMsg := Sprint v;
             recDepth := GoInt.add (seelogStaticFuncCallDepth s) 2;
             recStack := here "Print" 168 :: stk;
             recLogger := Current s |} ];
      seelogStaticFuncCallDepth := seelogStaticFuncCallDepth s |}, Ok tt).
Proof. reflexivity. Qed.

Lemma Println_eq stk v (s : St) :
  Println stk v s =
  ({| staticFuncCallDepth := seelogStaticFuncCallDepth s;
      Current := Current s;
      delivered :=
        delivered s ++
        [ {| recLevel := InfoLvl; recMsg := Sprint [VString (Sprintln v)];
             recDepth := GoInt.add (seelogStaticFuncCallDepth s) 2;
             recStack := here "Println" 174 :: stk;
             recLogger := Current s |} ];
      seelogStaticFuncCallDepth := seelogStaticFuncCallDepth s |}, Ok tt).
Proof. reflexivity. Qed.

Lemma Panic_eq stk v (s : St) :
  Panic stk v s =
  ({| staticFuncCallDepth := seelogStaticFuncCallDepth s;
      Current := Current s;
      delivered :=
        delivered s ++
        [ {| recLevel := CriticalLvl; recMsg := Sprint v;
             recDepth := GoInt.add (seelogStaticFuncCallDepth s) 2;
             recStack := here "Panic" 161 :: stk;
             recLogger := Current s |} ];
      seelogStaticFuncCallDepth := seelogStaticFuncCallDepth s |},
   Panicking panicMessage).
Proof. reflexivity. Qed.

(** The deferred restore does not run: the process exits with the
    raised depth still in force. *)
Lemma Fatal_eq stk v (s : St) :
  Fatal stk v s =
  ({| staticFuncCallDepth := GoInt.add (seelogStaticFuncCallDepth s) 2;
      Current := Current s;
      delivered :=
        delivered s ++
        [ {| recLevel := ErrorLvl; recMsg := Sprint v;
             recDepth := GoInt.add (seelogStaticFuncCallDepth s) 2;
             recStack := here "Fatal" 153 :: stk;
             recLogger := Current s |} ];
      seelogStaticFuncCallDepth := seelogStaticFuncCallDepth s |},
   Exiting 1).
Proof. reflexivity. Qed.

Lemma Printf_eq stk format v (s : St) :
  Printf Sprintf stk format v s =
  Print (here "Printf" 197 :: stk) [VString (Sprintf format v)] s.
Proof. reflexivity. Qed.

Lemma Panicf_eq stk format v (s : St) :
  Panicf Sprintf stk format v s =
  Panic (here "Panicf" 190 :: stk) [VString (Sprintf format v)] s.
Proof. reflexivity. Qed.

Lemma Fatalf_eq stk format v (s : St) :
  Fatalf Sprintf stk format v s =
  Fatal (here "Fatalf" 182 :: stk) [VString (Sprintf format v)] s.
Proof. reflexivity. Qed.


Lemma SetLoggerConfig_eq stk config (s : St) :
  SetLoggerConfig LoggerFromConfigAsBytes ReplaceLogger Sprintf stk config s
  = let logger := fst (LoggerFromConfigAsBytes (bytes_of config)) in
    let replaced := ReplaceLogger logger (Current s) in
    let s' := {| staticFuncCallDepth := staticFuncCallDepth s;
                 Current := fst replaced;
                 delivered := delivered s;
                 seelogStaticFuncCallDepth := seelogStaticFuncCallDepth s |} in
    match snd replaced with
    | Some _ =>
        Panicf Sprintf (here "SetLoggerConfig" 208 :: stk) replaceFormat
          [VString config] s'
    | None => (s', Ok tt)
    end.
Proof.
  unfold SetLoggerConfig, log_ReplaceLogger, bind.
  destruct (LoggerFromConfigAsBytes (bytes_of config)) as [logger e].
  cbn [fst]. destruct (ReplaceLogger logger (Current s)) as [cur' [msg|]];
    reflexivity.
Qed.

(** ** The level table *)

(** Every variadic entry point other than [Critical] hands the engine one
    record at the level the table gives. *)
Lemma variadic_levels_follow_table (L : FacadeLevel) stk v (s : St) :
  L <> LCritical ->
  exists r,
    delivered (fst (facadeCall L stk v s)) = delivered s ++ [r] /\
    recLevel r = LevelMapping L /\ recMsg r = Sprint v.
Proof.
  intros HL. destruct L; try congruence;
    (eexists; split; [reflexivity | split; reflexivity]).
Qed.

(** Every formatted entry point, [Criticalf] included, hands the engine
    one record at the level the table gives. *)
Lemma formatted_levels_follow_table (L : FacadeLevel) stk format v (s : St) :
  exists r,
    delivered (fst (facadeCallf Sprintf L stk format v s)) = delivered s ++ [r] /\
    recLevel r = LevelMapping L.
Proof.
  destruct L; (eexists; split; [reflexivity | reflexivity]).
Qed.

(** C1.  A call of the facade's [Critical] reaches the engine as exactly
    one record, and that record is at the engine's Error level: the body
    of [Critical] calls [log.Error].  The level table gives Critical for
    this entry point, so the table is not followed here, while it is
    followed by every other entry point (the two lemmas above). *)
Theorem Critical_reaches_engine_at_ErrorLvl stk v (s : St) :
  exists r,
    facadeCall LCritical stk v s =
      ({| staticFuncCallDepth := staticFuncCallDepth s;
          Current := Current s;
          delivered := delivered s ++ [r];
          seelogStaticFuncCallDepth := seelogStaticFuncCallDepth s |}, Ok tt) /\
    recMsg r = Sprint v /\
    recLevel r = ErrorLvl /\
    recLevel r <> LevelMapping LCritical.
Proof.
  eexists. split; [reflexivity|]. cbn. repeat split. discriminate.
Qed.

(** ** Print and Println *)

(** C8.  [Println] hands the engine one Info record whose message is the
    operands joined by single spaces followed by a newline; [Print] hands
    the engine one Info record whose message is the operands joined by
    [fmt.Sprint], with nothing appended.  Both return to the caller. *)
Theorem Println_appends_newline_Print_does_not stk v (s : St) :
  (exists r,
     delivered (fst (Println stk v s)) = delivered s ++ [r] /\
     snd (Println stk v s) = Ok tt /\
     recLevel r = InfoLvl /\
     recMsg r = (joinSpaces v ++ newline)%string) /\
  (exists r,
     delivered (fst (Print stk v s)) = delivered s ++ [r] /\
     snd (Print stk v s) = Ok tt /\
     recLevel r = InfoLvl /\
     recMsg r = Sprint v).
Proof.
  split.
  - rewrite Println_eq. eexists. cbn [fst snd delivered recLevel recMsg].
    repeat split.
    rewrite Sprint_single_string. apply Sprintln_joinSpaces.
  - rewrite Print_eq. eexists. cbn [fst snd delivered recLevel recMsg].
    repeat split.
Qed.

(** ** Fatal *)

(** C7.  [Fatal] hands the engine exactly one Error record carrying the
    joined operands and then ends the process with status 1, which is not
    zero; whatever the caller would run next is not run: sequencing any
    continuation after [Fatal] gives the outcome of [Fatal] alone. *)
Theorem Fatal_logs_error_then_exits stk v (s : St) :
  exists r code,
    delivered (fst (Fatal stk v s)) = delivered s ++ [r] /\
    recLevel r = ErrorLvl /\
    recMsg r = Sprint v /\
    snd (Fatal stk v s) = Exiting code /\
    code <> 0 /\
    forall (B : Type) (rest : unit -> M B),
      bind (Fatal stk v) rest s = (fst (Fatal stk v s), Exiting code).
Proof.
  exists {| recLevel := ErrorLvl; recMsg := Sprint v;
            recDepth := GoInt.add (seelogStaticFuncCallDepth s) 2;
            recStack := here "Fatal" 153 :: stk;
            recLogger := Current s |}, 1.
  rewrite Fatal_eq. cbn [fst snd delivered recLevel recMsg].
  repeat split; try discriminate.
Qed.

(** ** Panic *)

(** C6, as amended.  [Panic] hands the engine exactly one Critical record
    carrying the joined operands and then panics; the value of the panic
    is the constant [panicMessage] whatever the operands are, and it
    coincides with the logged message exactly when the joined operands
    spell that constant. *)
Theorem Panic_logs_critical_then_panics stk v (s : St) :
  exists r,
    delivered (fst (Panic stk v s)) = delivered s ++ [r] /\
    recLevel r = CriticalLvl /\
    recMsg r = Sprint v /\
    snd (Panic stk v s) = Panicking panicMessage /\
    String.eqb panicMessage (recMsg r) = String.eqb (Sprint v) panicMessage.
Proof.
  rewrite Panic_eq. eexists. cbn [fst snd delivered recLevel recMsg].
  repeat split. apply String.eqb_sym.
Qed.


(** ** The static call depth *)

Lemma layered_stack (e : Layered) stk format v (s : St) :
  exists inner outer r,
    delivered (fst (callLayered Sprintf e stk format v s)) = delivered s ++ [r] /\
    recStack r = inner :: outer :: stk /\
    frFile inner = wrapperFile /\ frFile outer = wrapperFile /\
    recDepth r = GoInt.add (seelogStaticFuncCallDepth s) 2.
Proof.
  destruct e; cbn [callLayered];
    [ rewrite Fatalf_eq, Fatal_eq
    | rewrite Panicf_eq, Panic_eq
    | rewrite Printf_eq, Print_eq ];
    do 3 eexists; cbn [fst delivered recStack recDepth];
    (split; [reflexivity|]); repeat split.
Qed.

Lemma reportedLocation_skips (engineBase : Z) (r : LogRecord (Logger := Logger))
      (skipped : list Frame) (f : Frame) (rest : list Frame) :
  recStack r = skipped ++ f :: rest ->
  recDepth r = engineBase + Z.of_nat (List.length skipped) ->
  reportedLocation engineBase r = At f.
Proof.
  intros Hstack Hdepth. unfold reportedLocation.
  rewrite Hstack, Hdepth.
  replace (engineBase + Z.of_nat (List.length skipped) <? engineBase) with false
    by (symmetry; apply Z.ltb_ge; lia).
  replace (engineBase + Z.of_nat (List.length skipped) - engineBase)
    with (Z.of_nat (List.length skipped)) by lia.
  rewrite Nat2Z.id, nth_error_app2 by lia.
  now rewrite Nat.sub_diag.
Qed.

(** C2.  When [Fatalf], [Panicf] or [Printf] is called from [caller], the
    one record the engine receives was made with two facade frames
    between the engine and [caller], at a static call depth equal to the
    captured baseline plus that number of frames; with the baseline being
    the depth at which the engine reports its direct caller, the location
    the engine reports for the record is [caller]. *)
Theorem layered_entry_reports_its_caller
        (e : Layered) (caller : Frame) (rest : list Frame)
        format v (s : St) (engineBase : Z) :
  seelogStaticFuncCallDepth s = engineBase ->
  GoInt.in_range (engineBase + 2) ->
  exists r interposed,
    delivered (fst (callLayered Sprintf e (caller :: rest) format v s))
      = delivered s ++ [r] /\
    recStack r = interposed ++ caller :: rest /\
    Forall (fun f => frFile f = wrapperFile) interposed /\
    recDepth r = seelogStaticFuncCallDepth s + Z.of_nat (List.length interposed) /\
    reportedLocation engineBase r = At caller.
Proof.
  intros Hbase Hrange.
  destruct (layered_stack e (caller :: rest) format v s)
    as (inner & outer & r & Hd & Hstack & Hinner & Houter & Hdepth).
  rewrite Hbase, add_no_overflow in Hdepth by assumption.
  exists r, [inner; outer].
  split; [exact Hd|]. split; [exact Hstack|].
  split; [repeat constructor; assumption|].
  split; [rewrite Hbase; exact Hdepth|].
  apply reportedLocation_skips with (skipped := [inner; outer]) (rest := rest);
    assumption.
Qed.

(** A call that comes back leaves the engine's depth at the facade's
    captured value, whatever it was before. *)
Lemma scoped_call_depth_after (e : Scoped) stk format v (s : St) :
  staticFuncCallDepth (fst (callScoped Sprintf e stk format v s))
  = seelogStaticFuncCallDepth s.
Proof. destruct e; reflexivity. Qed.

Lemma scoped_call_keeps_captured (e : Scoped) stk format v (s : St) :
  seelogStaticFuncCallDepth (fst (callScoped Sprintf e stk format v s))
  = seelogStaticFuncCallDepth s.
Proof. destruct e; reflexivity. Qed.

(** C3.  In the state [init] leaves, where the engine's depth is the
    captured value plus one, each of [Print], [Println], [Printf],
    [Panic] and [Panicf] comes back with the engine's depth set to the
    captured value: one less than it was immediately before the call. *)
Theorem scoped_call_lowers_depth_set_by_init
        (e : Scoped) stk format v (s : St) :
  staticFuncCallDepth s = seelogStaticFuncCallDepth s + 1 ->
  staticFuncCallDepth (fst (callScoped Sprintf e stk format v s))
    = staticFuncCallDepth s - 1 /\
  staticFuncCallDepth (fst (callScoped Sprintf e stk format v s))
    <> staticFuncCallDepth s.
Proof.
  intros Hinit. rewrite scoped_call_depth_after. lia.
Qed.

(** From the second call on the depth is already the captured value and
    stays there. *)
Lemma scoped_call_depth_stable (e : Scoped) stk format v (s : St) :
  staticFuncCallDepth s = seelogStaticFuncCallDepth s ->
  staticFuncCallDepth (fst (callScoped Sprintf e stk format v s))
  = staticFuncCallDepth s.
Proof. intros H. now rewrite scoped_call_depth_after. Qed.


(** ** SetLoggerConfig *)

(** The call panics exactly when the engine's [ReplaceLogger] returns an
    error; the error of the construction plays no part. *)
Lemma SetLoggerConfig_outcome stk config (s : St) :
  snd (SetLoggerConfig LoggerFromConfigAsBytes ReplaceLogger Sprintf
         stk config s)
  = match snd (ReplaceLogger (fst (LoggerFromConfigAsBytes (bytes_of config)))
                 (Current s)) with
    | Some _ => Panicking panicMessage
    | None => Ok tt
    end.
Proof.
  rewrite SetLoggerConfig_eq. cbv zeta.
  destruct (snd (ReplaceLogger _ _)); [rewrite Panicf_eq, Panic_eq|];
    reflexivity.
Qed.

Lemma includes_suffix (before part : string) :
  includes (before ++ part)%string part.
Proof.
  exists before, EmptyString. now rewrite append_empty_r.
Qed.

(** The failure path: when [ReplaceLogger] returns an error for the
    logger built from the text, the call hands the engine one Critical
    record whose message ends with the configuration text and then panics
    with the message [Panic] uses. *)
Lemma SetLoggerConfig_panics_when_replacement_fails
        stk config (s : St) :
  Sprintf replaceFormat [VString config] = replaceDiagnostic config ->
  replacementFails LoggerFromConfigAsBytes ReplaceLogger config s ->
  let out := SetLoggerConfig LoggerFromConfigAsBytes ReplaceLogger Sprintf
               stk config s in
  snd out = Panicking panicMessage /\
  exists r,
    delivered (fst out) = delivered s ++ [r] /\
    recLevel r = CriticalLvl /\
    recMsg r = replaceDiagnostic config /\
    includes (recMsg r) config.
Proof.
  intros Hfmt Hfail out. subst out. unfold replacementFails in Hfail.
  rewrite SetLoggerConfig_eq. cbv zeta.
  destruct (snd (ReplaceLogger _ _)) as [msg|]; [|congruence].
  rewrite Panicf_eq, Panic_eq, Hfmt, Sprint_single_string.
  split; [reflexivity|]. eexists.
  cbn [fst delivered recLevel recMsg]. repeat split.
  apply includes_suffix.
Qed.

(** The failure path when the refusing [ReplaceLogger] gives back the
    logger that was current: the facade writes no logger of its own, and
    the failure record and the record of a later [Info] call are made on
    behalf of that logger. *)
Lemma SetLoggerConfig_refused_keeps_current_logger
        stk config (s : St) (refusal : string) :
  ReplaceLogger (fst (LoggerFromConfigAsBytes (bytes_of config))) (Current s)
    = (Current s, Some refusal) ->
  let out := SetLoggerConfig LoggerFromConfigAsBytes ReplaceLogger Sprintf
               stk config s in
  snd out = Panicking panicMessage /\
  Current (fst out) = Current s /\
  (exists r,
     delivered (fst out) = delivered s ++ [r] /\ recLogger r = Current s) /\
  (forall stk' v', exists r',
     delivered (fst (Info stk' v' (fst out))) = delivered (fst out) ++ [r'] /\
     recLogger r' = Current s).
Proof.
  intros Hrefused out. subst out.
  rewrite SetLoggerConfig_eq. cbv zeta. rewrite Hrefused. cbn [fst snd].
  rewrite Panicf_eq, Panic_eq. cbn [fst snd Current delivered].
  split; [reflexivity|]. split; [reflexivity|]. split.
  - eexists. split; reflexivity.
  - intros stk' v'. eexists. split; reflexivity.
Qed.

(** C4.  On an engine that rejects malformed configuration (it refuses
    to install what a failed construction returned), for every
    configuration text whose construction fails or whose installation the
    engine refuses, [SetLoggerConfig] hands the engine one Critical record
    whose message includes the text and then panics with the very message
    [Panic] uses: it does not return normally.  ([fmt.Sprintf] is taken to
    render the facade's format string with the text in place of its
    [%v].) *)
Theorem SetLoggerConfig_surfaces_every_failure
        stk config (s : St) :
  rejectsFailedConstruction LoggerFromConfigAsBytes ReplaceLogger ->
  Sprintf replaceFormat [VString config] = replaceDiagnostic config ->
  constructionFails LoggerFromConfigAsBytes config \/
  replacementFails LoggerFromConfigAsBytes ReplaceLogger config s ->
  let out := SetLoggerConfig LoggerFromConfigAsBytes ReplaceLogger Sprintf
               stk config s in
  snd out = Panicking panicMessage /\
  snd out = snd (Panic (Logger := Logger) stk [VString config] s) /\
  snd out <> Ok tt /\
  exists r,
    delivered (fst out) = delivered s ++ [r] /\
    recLevel r = CriticalLvl /\
    recMsg r = replaceDiagnostic config /\
    includes (recMsg r) config.
Proof.
  intros Hrejects Hfmt Hfails.
  assert (Hrefused :
            replacementFails LoggerFromConfigAsBytes ReplaceLogger config s).
  { destruct Hfails as [Hbuild | Hinstall]; [|exact Hinstall].
    exact (Hrejects (bytes_of config) (Current s) Hbuild). }
  destruct (SetLoggerConfig_panics_when_replacement_fails stk config s
              Hfmt Hrefused) as [Hpanic Hrecord].
  cbv zeta. rewrite Hpanic.
  split; [reflexivity|]. split; [now rewrite Panic_eq|].
  split; [discriminate|]. exact Hrecord.
Qed.

(** C5.  On an engine whose installer is an atomic swap and which rejects
    malformed configuration, for every document whose construction fails
    [SetLoggerConfig] panics, the logger that was current before the call
    is the current one after it, and that logger still works: the record
    of the failure and the record of any later [Info] call are made on its
    behalf. *)
Theorem SetLoggerConfig_invalid_document_keeps_logger
        stk config (s : St) :
  atomicReplace ReplaceLogger ->
  rejectsFailedConstruction LoggerFromConfigAsBytes ReplaceLogger ->
  constructionFails LoggerFromConfigAsBytes config ->
  let out := SetLoggerConfig LoggerFromConfigAsBytes ReplaceLogger Sprintf
               stk config s in
  snd out = Panicking panicMessage /\
  Current (fst out) = Current s /\
  (exists r,
     delivered (fst out) = delivered s ++ [r] /\ recLogger r = Current s) /\
  (forall stk' v', exists r',
     delivered (fst (Info stk' v' (fst out))) = delivered (fst out) ++ [r'] /\
     recLogger r' = Current s).
Proof.
  intros Hatomic Hrejects Hbuild.
  pose proof (Hrejects (bytes_of config) (Current s) Hbuild) as Hrefused.
  destruct (Hatomic (fst (LoggerFromConfigAsBytes (bytes_of config)))
              (Current s)) as [Hinstalled | [refusal Hkept]].
  - rewrite Hinstalled in Hrefused. cbn [snd] in Hrefused. congruence.
  - exact (SetLoggerConfig_refused_keeps_current_logger stk config s refusal
             Hkept).
Qed.

(** On its failure path the call also leaves the engine's depth at the
    facade's captured value. *)
Lemma SetLoggerConfig_failure_depth_after stk config (s : St) :
  replacementFails LoggerFromConfigAsBytes ReplaceLogger config s ->
  staticFuncCallDepth
    (fst (SetLoggerConfig LoggerFromConfigAsBytes ReplaceLogger Sprintf
            stk config s))
  = seelogStaticFuncCallDepth s.
Proof.
  unfold replacementFails. intros Hfail.
  rewrite SetLoggerConfig_eq. cbv zeta.
  destruct (snd (ReplaceLogger _ _)); [reflexivity | congruence].
Qed.

(** C10.  When the construction returns an error together with some
    logger (nil or not) and [ReplaceLogger] accepts that logger, the call
    returns normally: no record is handed to the engine, no depth is
    touched, and the logger [ReplaceLogger] made current is current.  In
    every state, a panic of [SetLoggerConfig] implies that [ReplaceLogger]
    returned an error. *)
Theorem SetLoggerConfig_drops_construction_error
        stk config (s : St) (lg cur' : option Logger) (e : string) :
  LoggerFromConfigAsBytes (bytes_of config) = (lg, Some e) ->
  ReplaceLogger lg (Current s) = (cur', None) ->
  SetLoggerConfig LoggerFromConfigAsBytes ReplaceLogger Sprintf stk config s
    = ({| staticFuncCallDepth := staticFuncCallDepth s;
          Current := cur';
          delivered := delivered s;
          seelogStaticFuncCallDepth := seelogStaticFuncCallDepth s |}, Ok tt)
  /\
  (forall stk0 config0 (s0 : St) carried,
      snd (SetLoggerConfig LoggerFromConfigAsBytes ReplaceLogger Sprintf
             stk0 config0 s0) = Panicking carried ->
      replacementFails LoggerFromConfigAsBytes ReplaceLogger config0 s0).
Proof.
  intros Hbuilt Haccepted. split.
  - rewrite SetLoggerConfig_eq. cbv zeta.
    rewrite Hbuilt. cbn [fst]. rewrite Haccepted. reflexivity.
  - intros stk0 config0 s0 carried Hpanic.
    rewrite SetLoggerConfig_outcome in Hpanic. unfold replacementFails.
    destruct (snd (ReplaceLogger _ _)); [discriminate | discriminate].
Qed.

(** ** Initialization *)

(** C9.  On an engine that installs the logger it builds from the
    default configuration, [init] stores the engine's depth in the
    facade's variable, raises the engine's depth by one, makes that logger
    current and returns without having logged anything.  The text handed
    to the engine declares the [sync] type once, one console element, and
    one format, whose verbs are nanosecond time, level, file, function and
    message in this order. *)
Theorem init_captures_depth_and_installs_default stk (s : St) :
  GoInt.in_range (staticFuncCallDepth s + 1) ->
  ReplaceLogger (fst (LoggerFromConfigAsBytes (bytes_of init_c))) (Current s)
    = (fst (LoggerFromConfigAsBytes (bytes_of init_c)), None) ->
  init LoggerFromConfigAsBytes ReplaceLogger Sprintf stk s
    = ({| staticFuncCallDepth := staticFuncCallDepth s + 1;
          Current := fst (LoggerFromConfigAsBytes (bytes_of init_c));
          delivered := delivered s;
          seelogStaticFuncCallDepth := staticFuncCallDepth s |}, Ok tt)
  /\ ConfigText.occurrences
       ("<seelog type=" ++ dquote ++ "sync" ++ dquote ++ ">")%string init_c = 1%nat
  /\ ConfigText.occurrences "<console" init_c = 1%nat
  /\ ConfigText.occurrences "<format " init_c = 1%nat
  /\ ConfigText.occurrences
       ("format=" ++ dquote ++ init_format ++ dquote)%string init_c = 1%nat
  /\ ConfigText.formatVerbs init_format = ["Ns"; "LEVEL"; "File"; "Func"; "Msg"]%string.
Proof.
  intros Hrange Hinstalls. split; [|repeat split].
  unfold init, bind, log_GetStaticFuncCallDepth,
    set_seelogStaticFuncCallDepth, get_seelogStaticFuncCallDepth,
    log_SetStaticFuncCallDepth.
  cbn [seelogStaticFuncCallDepth staticFuncCallDepth Current delivered].
  rewrite SetLoggerConfig_eq. cbv zeta.
  cbn [seelogStaticFuncCallDepth staticFuncCallDepth Current delivered].
  rewrite Hinstalls. cbn [fst snd].
  now rewrite add_no_overflow.
Qed.

End Properties.

(** * The facade run on the two engines *)

Import Engines.

(** [init] on the strict engine: the depth goes from 3 to 4 and 3 is
    captured. *)
Example afterInit_depths :
  staticFuncCallDepth afterInit = 4 /\ seelogStaticFuncCallDepth afterInit = 3.
Proof. split; reflexivity. Qed.

(** [Critical("x")] after [init]: the engine sees an Error record. *)
Example Critical_x_after_init :
  map recLevel (delivered (fst (Critical [mainFrame] [VString "x"] afterInit)))
  = [ErrorLvl].
Proof. reflexivity. Qed.

Lemma layered_entry_reports_its_caller_witness :
  seelogStaticFuncCallDepth afterInit = 3 /\
  GoInt.in_range (3 + 2) /\
  exists r interposed,
    delivered (fst (callLayered Sprintf_v ViaPrint (mainFrame :: [runtimeFrame])
                      "%v items" [VInt 7] afterInit))
      = delivered afterInit ++ [r] /\
    recStack r = interposed ++ mainFrame :: [runtimeFrame] /\
    Forall (fun f => frFile f = wrapperFile) interposed /\
    recDepth r = seelogStaticFuncCallDepth afterInit
                 + Z.of_nat (List.length interposed) /\
    reportedLocation 3 r = At mainFrame.
Proof.
  assert (R : GoInt.in_range (3 + 2)) by (vm_compute; split; discriminate).
  split; [reflexivity|]. split; [exact R|].
  exact (layered_entry_reports_its_caller Sprintf_v ViaPrint mainFrame
           [runtimeFrame] "%v items" [VInt 7] afterInit 3 eq_refl R).
Defined.

Lemma scoped_call_lowers_depth_set_by_init_witness :
  staticFuncCallDepth afterInit = seelogStaticFuncCallDepth afterInit + 1 /\
  staticFuncCallDepth
    (fst (callScoped Sprintf_v SPrint [mainFrame] "" [VString "x"] afterInit))
    = staticFuncCallDepth afterInit - 1 /\
  staticFuncCallDepth
    (fst (callScoped Sprintf_v SPrint [mainFrame] "" [VString "x"] afterInit))
    <> staticFuncCallDepth afterInit.
Proof.
  split; [reflexivity|].
  exact (scoped_call_lowers_depth_set_by_init Sprintf_v SPrint [mainFrame] ""
           [VString "x"] afterInit eq_refl).
Defined.

(** The strict engine meets the two conditions taken from the
    specification. *)
Lemma replaceStrict_atomic : atomicReplace replaceStrict.
Proof.
  intros [l|] current; [left | right; eexists]; reflexivity.
Qed.

Lemma strict_engine_rejects_failed_construction :
  rejectsFailedConstruction fromBytes replaceStrict.
Proof.
  intros data current. unfold fromBytes.
  destruct (String.prefix "<seelog" (string_of_list_byte data));
    cbn [fst snd replaceStrict]; [congruence | discriminate].
Qed.

Lemma SetLoggerConfig_surfaces_every_failure_witness :
  rejectsFailedConstruction fromBytes replaceStrict /\
  Sprintf_v replaceFormat [VString "garbage"] = replaceDiagnostic "garbage" /\
  (constructionFails fromBytes "garbage" \/
   replacementFails fromBytes replaceStrict "garbage" afterInit) /\
  let out := SetLoggerConfig fromBytes replaceStrict Sprintf_v
               [mainFrame] "garbage" afterInit in
  snd out = Panicking panicMessage /\
  snd out = snd (Panic [mainFrame] [VString "garbage"] afterInit) /\
  snd out <> Ok tt /\
  exists r,
    delivered (fst out) = delivered afterInit ++ [r] /\
    recLevel r = CriticalLvl /\
    recMsg r = replaceDiagnostic "garbage" /\
    includes (recMsg r) "garbage".
Proof.
  assert (F : constructionFails fromBytes "garbage")
    by (unfold constructionFails; cbn; discriminate).
  split; [exact strict_engine_rejects_failed_construction|].
  split; [reflexivity|]. split; [left; exact F|].
  exact (SetLoggerConfig_surfaces_every_failure fromBytes replaceStrict
           Sprintf_v [mainFrame] "garbage" afterInit
           strict_engine_rejects_failed_construction eq_refl (or_introl F)).
Defined.

Lemma SetLoggerConfig_invalid_document_keeps_logger_witness :
  atomicReplace replaceStrict /\
  rejectsFailedConstruction fromBytes replaceStrict /\
  constructionFails fromBytes "<xml/>" /\
  let out := SetLoggerConfig fromBytes replaceStrict Sprintf_v
               [mainFrame] "<xml/>" afterInit in
  snd out = Panicking panicMessage /\
  Current (fst out) = Current afterInit /\
  (exists r,
     delivered (fst out) = delivered afterInit ++ [r] /\
     recLogger r = Current afterInit) /\
  (forall stk' v', exists r',
     delivered (fst (Info stk' v' (fst out))) = delivered (fst out) ++ [r'] /\
     recLogger r' = Current afterInit).
Proof.
  assert (F : constructionFails fromBytes "<xml/>")
    by (unfold constructionFails; cbn; discriminate).
  split; [exact replaceStrict_atomic|].
  split; [exact strict_engine_rejects_failed_construction|].
  split; [exact F|].
  exact (SetLoggerConfig_invalid_document_keeps_logger fromBytes replaceStrict
           Sprintf_v [mainFrame] "<xml/>" afterInit replaceStrict_atomic
           strict_engine_rejects_failed_construction F).
Defined.

(** C6, counterexample.  [Panic] called with its own diagnostic as the
    only operand logs the very text the panic carries. *)
Lemma Panic_of_its_own_diagnostic :
  recMsg (last (delivered (fst (Panic [mainFrame] [VString panicMessage]
                                  afterInit)))
               {| recLevel := TraceLvl; recMsg := ""; recDepth := 0;
                  recStack := []; recLogger := None |})
    = panicMessage /\
  snd (Panic [mainFrame] [VString panicMessage] afterInit)
    = Panicking panicMessage /\
  ~ panicSignalDistinct [mainFrame] [VString panicMessage] afterInit.
Proof.
  split; [reflexivity|]. split; [reflexivity|].
  intros (r & carried & _ & _ & Hmsg & Hpanic & Hdistinct).
  rewrite Panic_eq in Hpanic. cbn [snd] in Hpanic.
  injection Hpanic as <-.
  rewrite Sprint_single_string in Hmsg. now apply Hdistinct.
Qed.

Lemma SetLoggerConfig_drops_construction_error_witness :
  fromBytes (bytes_of "garbage") = (None, Some "invalid config") /\
  replaceLenient None (Current afterInit) = (None, None) /\
  SetLoggerConfig fromBytes replaceLenient Sprintf_v [mainFrame] "garbage"
    afterInit
    = ({| staticFuncCallDepth := staticFuncCallDepth afterInit;
          Current := None;
          delivered := delivered afterInit;
          seelogStaticFuncCallDepth := seelogStaticFuncCallDepth afterInit |},
       Ok tt)
  /\
  (forall stk0 config0 (s0 : State) carried,
      snd (SetLoggerConfig fromBytes replaceLenient Sprintf_v
             stk0 config0 s0) = Panicking carried ->
      replacementFails fromBytes replaceLenient config0 s0).
Proof.
  split; [reflexivity|]. split; [reflexivity|].
  exact (SetLoggerConfig_drops_construction_error fromBytes replaceLenient
           Sprintf_v [mainFrame] "garbage" afterInit None None
           "invalid config" eq_refl eq_refl).
Defined.

Lemma init_captures_depth_and_installs_default_witness :
  GoInt.in_range (staticFuncCallDepth start + 1) /\
  replaceStrict (fst (fromBytes (bytes_of init_c))) (Current start)
    = (fst (fromBytes (bytes_of init_c)), None) /\
  init fromBytes replaceStrict Sprintf_v [runtimeFrame] start
    = ({| staticFuncCallDepth := 3 + 1;
          Current := Some init_c;
          delivered := [];
          seelogStaticFuncCallDepth := 3 |}, Ok tt).
Proof.
  assert (R : GoInt.in_range (staticFuncCallDepth start + 1))
    by (vm_compute; split; discriminate).
  split; [exact R|]. split; [reflexivity|].
  exact (proj1 (init_captures_depth_and_installs_default fromBytes
                  replaceStrict Sprintf_v [runtimeFrame] start R eq_refl)).
Defined.

(** * Further properties of the facade *)

(** ** Joining operands that are not strings *)

Lemma doPrint_without_strings (v : list value) :
  forallb (fun a => negb (isString a)) v = true ->
  forall first,
    doPrint first false v = doPrintln_args first v.
Proof.
  induction v as [|a rest IH]; intros Hnone first; [reflexivity|].
  cbn [forallb] in Hnone. apply andb_true_iff in Hnone as [Ha Hrest].
  apply negb_true_iff in Ha.
  cbn [doPrint doPrintln_args]. rewrite Ha. cbn [negb].
  rewrite andb_true_r, (IH Hrest false).
  destruct first; reflexivity.
Qed.

Lemma joinSpaces_strings (l : list string) :
  joinSpaces (map VString l) = String.concat " " l.
Proof.
  unfold joinSpaces. rewrite map_map. cbn [printArg]. now rewrite map_id.
Qed.

Section MoreProperties.

Context {Logger : Type}.
Variable LoggerFromConfigAsBytes : list byte -> option Logger * error.
Variable ReplaceLogger :
  option Logger -> option Logger -> option Logger * error.
Variable Sprintf : string -> list value -> string.

Local Abbreviation St := (State (Logger := Logger)).

(** ** Where records are attributed *)

(** X1.  [Fatal], [Panic], [Print] and [Println] put one facade frame
    between the engine and their caller but log at the captured baseline
    plus two: the engine skips the caller and reports the frame above it,
    or nothing when the caller is the outermost frame. *)
Theorem direct_entry_reports_frame_above_caller
        (e : Direct) (caller : Frame) (above : list Frame)
        v (s : St) (engineBase : Z) :
  seelogStaticFuncCallDepth s = engineBase ->
  GoInt.in_range (engineBase + 2) ->
  exists r inner,
    delivered (fst (callDirect e (caller :: above) v s)) = delivered s ++ [r] /\
    recStack r = inner :: caller :: above /\
    frFile inner = wrapperFile /\
    recDepth r = engineBase + 2 /\
    reportedLocation engineBase r
      = match above with
        | parent :: _ => At parent
        | [] => BeyondStack
        end.
Proof.
  intros Hbase Hrange.
  assert (Hskip : forall r : LogRecord (Logger := Logger),
             recDepth r = engineBase + 2 ->
             forall inner, recStack r = inner :: caller :: above ->
             reportedLocation engineBase r
             = match above with parent :: _ => At parent | [] => BeyondStack end).
  { intros r Hd inner Hs. unfold reportedLocation. rewrite Hd, Hs.
    replace (engineBase + 2 <? engineBase) with false
      by (symmetry; apply Z.ltb_ge; lia).
    replace (engineBase + 2 - engineBase) with 2 by lia.
    destruct above; reflexivity. }
  destruct e; cbn [callDirect];
    [ rewrite Fatal_eq | rewrite Panic_eq | rewrite Print_eq | rewrite Println_eq ];
    rewrite Hbase, add_no_overflow by assumption;
    do 2 eexists; cbn [fst delivered];
    (split; [reflexivity|]); (split; [reflexivity|]);
    (split; [reflexivity|]); (split; [reflexivity|]);
    eapply Hskip; reflexivity.
Qed.

(** X2.  With the engine's depth one above the depth at which it reports
    its direct caller (the state [init] leaves), each forwarding function,
    variadic or formatted, logs at the depth in force and the engine
    reports the caller of the facade function. *)
Theorem forwarding_entry_reports_caller_after_init
        (L : FacadeLevel) (caller : Frame) (above : list Frame)
        format v (s : St) (engineBase : Z) :
  forwards L = true ->
  staticFuncCallDepth s = engineBase + 1 ->
  (exists r,
     delivered (fst (facadeCall L (caller :: above) v s)) = delivered s ++ [r] /\
     recDepth r = staticFuncCallDepth s /\
     reportedLocation engineBase r = At caller) /\
  (exists r,
     delivered (fst (facadeCallf Sprintf L (caller :: above) format v s))
       = delivered s ++ [r] /\
     recDepth r = staticFuncCallDepth s /\
     reportedLocation engineBase r = At caller).
Proof.
  intros Hfwd Hdepth.
  assert (Hone : forall r : LogRecord (Logger := Logger),
             recDepth r = engineBase + 1 ->
             forall inner, recStack r = inner :: caller :: above ->
             reportedLocation engineBase r = At caller).
  { intros r Hd inner Hs.
    apply reportedLocation_skips with (skipped := [inner]) (rest := above);
      [exact Hs | rewrite Hd; reflexivity]. }
  destruct L; try discriminate Hfwd;
    (split; eexists; cbn [fst delivered facadeCall facadeCallf];
     (split; [reflexivity|]); (split; [reflexivity|]);
     (eapply Hone; [cbn [recDepth]; exact Hdepth | reflexivity])).
Qed.

(** X3.  Once [Print], [Println], [Printf], [Panic] or [Panicf] has come
    back, the engine's depth is the captured baseline, so a later call of
    a forwarding function is reported at the facade's own frame in
    [log.go], the frame just below the caller. *)
Theorem forwarding_entry_after_scoped_call_reports_facade
        (L : FacadeLevel) (e : Scoped) stk0 format0 v0
        (caller : Frame) (above : list Frame) format v
        (s : St) (engineBase : Z) :
  forwards L = true ->
  seelogStaticFuncCallDepth s = engineBase ->
  let s' := fst (callScoped Sprintf e stk0 format0 v0 s) in
  (exists r own,
     delivered (fst (facadeCall L (caller :: above) v s')) = delivered s' ++ [r] /\
     recStack r = own :: caller :: above /\
     frFile own = wrapperFile /\
     reportedLocation engineBase r = At own) /\
  (exists r own,
     delivered (fst (facadeCallf Sprintf L (caller :: above) format v s'))
       = delivered s' ++ [r] /\
     recStack r = own :: caller :: above /\
     frFile own = wrapperFile /\
     reportedLocation engineBase r = At own).
Proof.
  intros Hfwd Hbase s'.
  assert (Hdepth : staticFuncCallDepth s' = engineBase)
    by (subst s'; now rewrite scoped_call_depth_after).
  assert (Hzero : forall r : LogRecord (Logger := Logger),
             recDepth r = engineBase ->
             forall own, recStack r = own :: caller :: above ->
             reportedLocation engineBase r = At own).
  { intros r Hd own Hs.
    apply reportedLocation_skips with (skipped := []) (rest := caller :: above);
      [exact Hs | rewrite Hd; cbn; lia]. }
  clearbody s'.
  destruct L; try discriminate Hfwd;
    (split; do 2 eexists; cbn [fst delivered facadeCall facadeCallf];
     (split; [reflexivity|]); (split; [reflexivity|]);
     (split; [reflexivity|]);
     (eapply Hzero; [cbn [recDepth]; exact Hdepth | reflexivity])).
Qed.


(** ** Levels, messages and outcomes *)

(** X4.  Each formatted function hands the engine one record at the level
    of the table whose message is [Sprintf format v]; [Fatalf] then exits
    with status 1, [Panicf] panics with the fixed message, and the others
    return. *)
Theorem formatted_entry_level_message_outcome
        (L : FacadeLevel) stk format v (s : St) :
  exists r,
    delivered (fst (facadeCallf Sprintf L stk format v s)) = delivered s ++ [r] /\
    recLevel r = LevelMapping L /\
    recMsg r = Sprintf format v /\
    snd (facadeCallf Sprintf L stk format v s)
      = match L with
        | LFatal => Exiting 1
        | LPanic => Panicking panicMessage
        | _ => Ok tt
        end.
Proof.
  destruct L; cbn [facadeCallf];
    try (eexists; repeat split; reflexivity);
    [ rewrite Printf_eq, Print_eq
    | rewrite Fatalf_eq, Fatal_eq
    | rewrite Panicf_eq, Panic_eq ];
    eexists; cbn [fst snd delivered];
    (split; [reflexivity|]); cbn [recLevel recMsg LevelMapping];
    (split; [reflexivity|]); (split; [apply Sprint_single_string | reflexivity]).
Qed.

(** X5.  Each variadic function other than [Critical] hands the engine one
    record at the level of the table whose message is the operands joined
    by [fmt.Sprint]; [Fatal] then exits with status 1, [Panic] panics with
    the fixed message, and the others return. *)
Theorem variadic_entry_level_message_outcome
        (L : FacadeLevel) stk v (s : St) :
  L <> LCritical ->
  exists r,
    delivered (fst (facadeCall L stk v s)) = delivered s ++ [r] /\
    recLevel r = LevelMapping L /\
    recMsg r = Sprint v /\
    snd (facadeCall L stk v s)
      = match L with
        | LFatal => Exiting 1
        | LPanic => Panicking panicMessage
        | _ => Ok tt
        end.
Proof.
  intros HL. destruct L; try congruence;
    (eexists; repeat split; reflexivity).
Qed.

(** ** What a logging call leaves alone *)

(** X6.  None of the nineteen logging functions changes the engine's
    current logger or the facade's captured depth; each keeps the records
    already handed over and adds exactly one, made on behalf of the logger
    that is current. *)
Theorem logging_entry_keeps_logger_and_baseline
        (e : Entry) stk format v (s : St) :
  let s' := fst (callEntry Sprintf e stk format v s) in
  Current s' = Current s /\
  seelogStaticFuncCallDepth s' = seelogStaticFuncCallDepth s /\
  exists r,
    delivered s' = delivered s ++ [r] /\ recLogger r = Current s.
Proof.
  destruct e as [L|L|]; [destruct L | destruct L |];
    (cbv zeta; split; [reflexivity|]; split; [reflexivity|];
     eexists; split; reflexivity).
Qed.

(** X7.  The functions in the style of golang's log overwrite the engine's
    static call depth before they log: whatever depth was in force when
    they are called, the records, the outcome and the state they leave are
    the same. *)
Theorem golang_style_entry_ignores_depth_in_force
        (e : Entry) stk format v (s : St) (d : Z) :
  golangStyle e = true ->
  callEntry Sprintf e stk format v (fst (log_SetStaticFuncCallDepth d s))
  = callEntry Sprintf e stk format v s.
Proof.
  intros Hstyle.
  destruct e as [L|L|]; [destruct L | destruct L |];
    try discriminate Hstyle; reflexivity.
Qed.

(** X8.  After the first of two calls among [Print], [Println], [Printf],
    [Panic] and [Panicf] the engine's depth is the captured value, and the
    second call leaves it there. *)
Theorem scoped_calls_keep_depth_after_the_first
        (e1 e2 : Scoped) stk1 format1 v1 stk2 format2 v2 (s : St) :
  let s1 := fst (callScoped Sprintf e1 stk1 format1 v1 s) in
  let s2 := fst (callScoped Sprintf e2 stk2 format2 v2 s1) in
  staticFuncCallDepth s1 = seelogStaticFuncCallDepth s /\
  staticFuncCallDepth s2 = staticFuncCallDepth s1.
Proof.
  cbv zeta. rewrite !scoped_call_depth_after, scoped_call_keeps_captured.
  split; reflexivity.
Qed.

(** ** SetLoggerConfig and init *)

(** X9.  The current logger after [SetLoggerConfig] is always the one the
    engine's [ReplaceLogger] left, and the captured depth is kept.  When
    [ReplaceLogger] returns no error the call returns with no record and
    the engine's depth untouched; when it returns one the call panics
    with the fixed message, one record longer, with the engine's depth at
    the captured value. *)
Theorem SetLoggerConfig_effect stk config (s : St) :
  let replaced :=
    ReplaceLogger (fst (LoggerFromConfigAsBytes (bytes_of config)))
      (Current s) in
  let out := SetLoggerConfig LoggerFromConfigAsBytes ReplaceLogger Sprintf
               stk config s in
  Current (fst out) = fst replaced /\
  seelogStaticFuncCallDepth (fst out) = seelogStaticFuncCallDepth s /\
  match snd replaced with
  | None =>
      snd out = Ok tt /\
      delivered (fst out) = delivered s /\
      staticFuncCallDepth (fst out) = staticFuncCallDepth s
  | Some _ =>
      snd out = Panicking panicMessage /\
      List.length (delivered (fst out)) = S (List.length (delivered s)) /\
      staticFuncCallDepth (fst out) = seelogStaticFuncCallDepth s
  end.
Proof.
  cbv zeta. rewrite SetLoggerConfig_eq. cbv zeta.
  destruct (snd (ReplaceLogger _ _)) as [refusal|].
  - rewrite Panicf_eq, Panic_eq. cbn [fst snd Current delivered
      seelogStaticFuncCallDepth staticFuncCallDepth].
    repeat split. rewrite length_app. cbn [List.length]. lia.
  - cbn [fst snd Current delivered seelogStaticFuncCallDepth
      staticFuncCallDepth]. repeat split.
Qed.

(** X10.  On the failure path of [SetLoggerConfig] three facade frames lie
    between the engine and the caller while the depth is the baseline plus
    two: the record is reported at line 208 of [log.go], inside
    [SetLoggerConfig], not at the caller of [SetLoggerConfig]. *)
Theorem SetLoggerConfig_failure_reported_inside_facade
        stk config (s : St) (engineBase : Z) :
  seelogStaticFuncCallDepth s = engineBase ->
  GoInt.in_range (engineBase + 2) ->
  replacementFails LoggerFromConfigAsBytes ReplaceLogger config s ->
  exists r,
    delivered (fst (SetLoggerConfig LoggerFromConfigAsBytes ReplaceLogger
                      Sprintf stk config s)) = delivered s ++ [r] /\
    recStack r
      = here "Panic" 161 :: here "Panicf" 190 :: here "SetLoggerConfig" 208
        :: stk /\
    reportedLocation engineBase r = At (here "SetLoggerConfig" 208).
Proof.
  intros Hbase Hrange Hfail. unfold replacementFails in Hfail.
  rewrite SetLoggerConfig_eq. cbv zeta.
  destruct (snd (ReplaceLogger _ _)) as [refusal|]; [|congruence].
  rewrite Panicf_eq, Panic_eq.
  cbn [fst delivered seelogStaticFuncCallDepth].
  rewrite Hbase, add_no_overflow by assumption.
  eexists. split; [reflexivity|]. split; [reflexivity|].
  apply reportedLocation_skips
    with (skipped := [here "Panic" 161; here "Panicf" 190]) (rest := stk);
    reflexivity.
Qed.

(** X11.  When the engine refuses the logger built from the default
    configuration, [init] panics with the fixed message after one Critical
    record that carries the default text, and the engine's depth is back
    at the value [init] found and captured: the increment of [init] is
    undone by the deferred restore. *)
Theorem init_refused_panics_and_undoes_increment
        stk (s : St) (cur' : option Logger) (refusal : string) :
  Sprintf replaceFormat [VString init_c] = replaceDiagnostic init_c ->
  ReplaceLogger (fst (LoggerFromConfigAsBytes (bytes_of init_c))) (Current s)
    = (cur', Some refusal) ->
  let out := init LoggerFromConfigAsBytes ReplaceLogger Sprintf stk s in
  snd out = Panicking panicMessage /\
  seelogStaticFuncCallDepth (fst out) = staticFuncCallDepth s /\
  staticFuncCallDepth (fst out) = staticFuncCallDepth s /\
  Current (fst out) = cur' /\
  exists r,
    delivered (fst out) = delivered s ++ [r] /\
    recLevel r = CriticalLvl /\
    recMsg r = replaceDiagnostic init_c.
Proof.
  intros Hfmt Hrefused. cbv zeta.
  unfold init, bind, log_GetStaticFuncCallDepth,
    set_seelogStaticFuncCallDepth, get_seelogStaticFuncCallDepth,
    log_SetStaticFuncCallDepth.
  cbn [seelogStaticFuncCallDepth staticFuncCallDepth Current delivered].
  rewrite SetLoggerConfig_eq. cbv zeta.
  cbn [seelogStaticFuncCallDepth staticFuncCallDepth Current delivered].
  rewrite Hrefused. cbn [fst snd].
  rewrite Panicf_eq, Panic_eq, Hfmt, Sprint_single_string.
  cbn [fst snd seelogStaticFuncCallDepth staticFuncCallDepth Current delivered].
  repeat split. eexists. repeat split.
Qed.

(** ** Print against Println *)

(** X12.  When no operand is a string, [Println] logs exactly the message
    [Print] logs for the same operands, followed by a newline. *)
Theorem Println_is_Print_plus_newline_without_strings
        stk stk' v (s : St) :
  forallb (fun a => negb (isString a)) v = true ->
  exists printed lined,
    delivered (fst (Print stk v s)) = delivered s ++ [printed] /\
    delivered (fst (Println stk' v s)) = delivered s ++ [lined] /\
    recMsg lined = (recMsg printed ++ newline)%string.
Proof.
  intros Hnone. rewrite Print_eq, Println_eq.
  do 2 eexists. cbn [fst delivered].
  split; [reflexivity|]. split; [reflexivity|].
  cbn [recMsg]. rewrite Sprint_single_string.
  unfold Sprintln, Sprint. now rewrite doPrint_without_strings.
Qed.

(** X13.  When all operands are strings, [Print] logs them concatenated
    with nothing between them, while [Println] logs them separated by
    single spaces and followed by a newline. *)
Theorem Print_concatenates_strings_Println_spaces_them
        stk stk' (l : list string) (s : St) :
  exists printed lined,
    delivered (fst (Print stk (map VString l) s)) = delivered s ++ [printed] /\
    delivered (fst (Println stk' (map VString l) s)) = delivered s ++ [lined] /\
    recMsg printed = String.concat "" l /\
    recMsg lined = (String.concat " " l ++ newline)%string.
Proof.
  rewrite Print_eq, Println_eq.
  do 2 eexists. cbn [fst delivered].
  split; [reflexivity|]. split; [reflexivity|].
  cbn [recMsg]. split; [apply Sprint_strings|].
  now rewrite Sprint_single_string, Sprintln_joinSpaces, joinSpaces_strings.
Qed.

(** ** From init to the first calls *)

(** Whether the engine takes the default configuration or not, [init]
    leaves the depth it found in the facade's variable. *)
Lemma init_captures_depth_found stk (s : St) :
  seelogStaticFuncCallDepth
    (fst (init LoggerFromConfigAsBytes ReplaceLogger Sprintf stk s))
  = staticFuncCallDepth s.
Proof.
  unfold init, bind, log_GetStaticFuncCallDepth,
    set_seelogStaticFuncCallDepth, get_seelogStaticFuncCallDepth,
    log_SetStaticFuncCallDepth.
  cbn [seelogStaticFuncCallDepth staticFuncCallDepth Current delivered].
  rewrite SetLoggerConfig_eq. cbv zeta.
  destruct (snd (ReplaceLogger _ _)); reflexivity.
Qed.

Lemma init_accepted_depth stk (s : St) :
  snd (ReplaceLogger (fst (LoggerFromConfigAsBytes (bytes_of init_c)))
         (Current s)) = None ->
  staticFuncCallDepth
    (fst (init LoggerFromConfigAsBytes ReplaceLogger Sprintf stk s))
  = GoInt.add (staticFuncCallDepth s) 1.
Proof.
  intros Haccepted.
  unfold init, bind, log_GetStaticFuncCallDepth,
    set_seelogStaticFuncCallDepth, get_seelogStaticFuncCallDepth,
    log_SetStaticFuncCallDepth.
  cbn [seelogStaticFuncCallDepth staticFuncCallDepth Current delivered].
  rewrite SetLoggerConfig_eq. cbv zeta.
  cbn [seelogStaticFuncCallDepth staticFuncCallDepth Current delivered].
  rewrite Haccepted. reflexivity.
Qed.

(** X14.  Starting from an engine whose depth is the one at which it
    reports its direct caller, after [init] (whatever the engine made of
    the default configuration) a call of [Fatalf], [Panicf] or [Printf]
    from [caller] is reported at [caller]. *)
Theorem layered_entry_after_init_reports_caller
        (e : Layered) istk (caller : Frame) (above : list Frame)
        format v (s : St) :
  GoInt.in_range (staticFuncCallDepth s + 2) ->
  let s' := fst (init LoggerFromConfigAsBytes ReplaceLogger Sprintf istk s) in
  exists r,
    delivered (fst (callLayered Sprintf e (caller :: above) format v s'))
      = delivered s' ++ [r] /\
    reportedLocation (staticFuncCallDepth s) r = At caller.
Proof.
  intros Hrange s'.
  destruct (layered_stack Sprintf e (caller :: above) format v s')
    as (inner & outer & r & Hd & Hstack & _ & _ & Hdepth).
  subst s'. rewrite init_captures_depth_found in Hdepth.
  rewrite add_no_overflow in Hdepth by assumption.
  exists r. split; [exact Hd|].
  apply reportedLocation_skips with (skipped := [inner; outer]) (rest := above);
    assumption.
Qed.

(** X15.  Starting from an engine whose depth is the one at which it
    reports its direct caller, after an [init] whose default configuration
    the engine accepted, a call of a forwarding function from [caller] is
    reported at [caller]. *)
Theorem forwarding_entry_after_accepted_init_reports_caller
        (L : FacadeLevel) istk (caller : Frame) (above : list Frame)
        format v (s : St) :
  forwards L = true ->
  GoInt.in_range (staticFuncCallDepth s + 1) ->
  snd (ReplaceLogger (fst (LoggerFromConfigAsBytes (bytes_of init_c)))
         (Current s)) = None ->
  let s' := fst (init LoggerFromConfigAsBytes ReplaceLogger Sprintf istk s) in
  (exists r,
     delivered (fst (facadeCall L (caller :: above) v s')) = delivered s' ++ [r] /\
     reportedLocation (staticFuncCallDepth s) r = At caller) /\
  (exists r,
     delivered (fst (facadeCallf Sprintf L (caller :: above) format v s'))
       = delivered s' ++ [r] /\
     reportedLocation (staticFuncCallDepth s) r = At caller).
Proof.
  intros Hfwd Hrange Haccepted s'.
  assert (Hdepth : staticFuncCallDepth s' = staticFuncCallDepth s + 1)
    by (subst s'; rewrite init_accepted_depth by assumption;
        now apply add_no_overflow).
  clearbody s'.
  assert (Hone : forall r : LogRecord (Logger := Logger),
             recDepth r = staticFuncCallDepth s + 1 ->
             forall own, recStack r = own :: caller :: above ->
             reportedLocation (staticFuncCallDepth s) r = At caller).
  { intros r Hd own Hs.
    apply reportedLocation_skips with (skipped := [own]) (rest := above);
      [exact Hs | rewrite Hd; reflexivity]. }
  destruct L; try discriminate Hfwd;
    (split; eexists; cbn [fst delivered facadeCall facadeCallf];
     (split; [reflexivity|]);
     (eapply Hone; [cbn [recDepth]; exact Hdepth | reflexivity])).
Qed.

End MoreProperties.

(** ** The further properties on the small engines *)

Lemma direct_entry_reports_frame_above_caller_witness :
  seelogStaticFuncCallDepth afterInit = 3 /\
  GoInt.in_range (3 + 2) /\
  exists r inner,
    delivered (fst (callDirect DPrint (mainFrame :: [runtimeFrame])
                      [VString "x"] afterInit))
      = delivered afterInit ++ [r] /\
    recStack r = inner :: mainFrame :: [runtimeFrame] /\
    frFile inner = wrapperFile /\
    recDepth r = 3 + 2 /\
    reportedLocation 3 r = At runtimeFrame.
Proof.
  assert (R : GoInt.in_range (3 + 2)) by (vm_compute; split; discriminate).
  split; [reflexivity|]. split; [exact R|].
  exact (direct_entry_reports_frame_above_caller DPrint mainFrame
           [runtimeFrame] [VString "x"] afterInit 3 eq_refl R).
Defined.

Lemma forwarding_entry_reports_caller_after_init_witness :
  forwards LInfo = true /\
  staticFuncCallDepth afterInit = 3 + 1 /\
  (exists r,
     delivered (fst (facadeCall LInfo (mainFrame :: [runtimeFrame])
                       [VString "x"] afterInit))
       = delivered afterInit ++ [r] /\
     recDepth r = staticFuncCallDepth afterInit /\
     reportedLocation 3 r = At mainFrame) /\
  (exists r,
     delivered (fst (facadeCallf Sprintf_v LInfo (mainFrame :: [runtimeFrame])
                       "%v" [VString "x"] afterInit))
       = delivered afterInit ++ [r] /\
     recDepth r = staticFuncCallDepth afterInit /\
     reportedLocation 3 r = At mainFrame).
Proof.
  split; [reflexivity|]. split; [reflexivity|].
  exact (forwarding_entry_reports_caller_after_init Sprintf_v LInfo mainFrame
           [runtimeFrame] "%v" [VString "x"] afterInit 3 eq_refl eq_refl).
Defined.

Lemma forwarding_entry_after_scoped_call_reports_facade_witness :
  forwards LInfo = true /\
  seelogStaticFuncCallDepth afterInit = 3 /\
  let s' := fst (callScoped Sprintf_v SPrint [mainFrame] "" [VString "x"]
                   afterInit) in
  (exists r own,
     delivered (fst (facadeCall LInfo (mainFrame :: [runtimeFrame])
                       [VString "y"] s')) = delivered s' ++ [r] /\
     recStack r = own :: mainFrame :: [runtimeFrame] /\
     frFile own = wrapperFile /\
     reportedLocation 3 r = At own) /\
  (exists r own,
     delivered (fst (facadeCallf Sprintf_v LInfo (mainFrame :: [runtimeFrame])
                       "%v" [VString "y"] s')) = delivered s' ++ [r] /\
     recStack r = own :: mainFrame :: [runtimeFrame] /\
     frFile own = wrapperFile /\
     reportedLocation 3 r = At own).
Proof.
  split; [reflexivity|]. split; [reflexivity|].
  exact (forwarding_entry_after_scoped_call_reports_facade Sprintf_v LInfo
           SPrint [mainFrame] "" [VString "x"] mainFrame [runtimeFrame]
           "%v" [VString "y"] afterInit 3 eq_refl eq_refl).
Defined.

Lemma variadic_entry_level_message_outcome_witness :
  LFatal <> LCritical /\
  exists r,
    delivered (fst (facadeCall LFatal [mainFrame] [VString "x"; VInt 1]
                      afterInit)) = delivered afterInit ++ [r] /\
    recLevel r = LevelMapping LFatal /\
    recMsg r = Sprint [VString "x"; VInt 1] /\
    snd (facadeCall LFatal [mainFrame] [VString "x"; VInt 1] afterInit)
      = Exiting 1.
Proof.
  assert (N : LFatal <> LCritical) by discriminate.
  split; [exact N|].
  exact (variadic_entry_level_message_outcome LFatal [mainFrame]
           [VString "x"; VInt 1] afterInit N).
Defined.

Lemma golang_style_entry_ignores_depth_in_force_witness :
  golangStyle Line = true /\
  callEntry Sprintf_v Line [mainFrame] "" [VString "x"]
    (fst (log_SetStaticFuncCallDepth 99 afterInit))
  = callEntry Sprintf_v Line [mainFrame] "" [VString "x"] afterInit.
Proof.
  split; [reflexivity|].
  exact (golang_style_entry_ignores_depth_in_force Sprintf_v Line [mainFrame]
           "" [VString "x"] afterInit 99 eq_refl).
Defined.

Lemma SetLoggerConfig_failure_reported_inside_facade_witness :
  seelogStaticFuncCallDepth afterInit = 3 /\
  GoInt.in_range (3 + 2) /\
  replacementFails fromBytes replaceStrict "garbage" afterInit /\
  exists r,
    delivered (fst (SetLoggerConfig fromBytes replaceStrict Sprintf_v
                      [mainFrame] "garbage" afterInit))
      = delivered afterInit ++ [r] /\
    recStack r
      = here "Panic" 161 :: here "Panicf" 190 :: here "SetLoggerConfig" 208
        :: [mainFrame] /\
    reportedLocation 3 r = At (here "SetLoggerConfig" 208).
Proof.
  assert (R : GoInt.in_range (3 + 2)) by (vm_compute; split; discriminate).
  assert (F : replacementFails fromBytes replaceStrict "garbage" afterInit)
    by (unfold replacementFails; cbn; discriminate).
  split; [reflexivity|]. split; [exact R|]. split; [exact F|].
  exact (SetLoggerConfig_failure_reported_inside_facade fromBytes
           replaceStrict Sprintf_v [mainFrame] "garbage" afterInit 3
           eq_refl R F).
Defined.

Lemma init_refused_panics_and_undoes_increment_witness :
  Sprintf_v replaceFormat [VString init_c] = replaceDiagnostic init_c /\
  replaceStrict (fst (BareEngine.fromBytes (bytes_of init_c))) (Current start)
    = (Current start, Some "logger can not be nil") /\
  let out := init BareEngine.fromBytes replaceStrict Sprintf_v
               [runtimeFrame] start in
  snd out = Panicking panicMessage /\
  seelogStaticFuncCallDepth (fst out) = staticFuncCallDepth start /\
  staticFuncCallDepth (fst out) = staticFuncCallDepth start /\
  Current (fst out) = Current start /\
  exists r,
    delivered (fst out) = delivered start ++ [r] /\
    recLevel r = CriticalLvl /\
    recMsg r = replaceDiagnostic init_c.
Proof.
  split; [reflexivity|]. split; [reflexivity|].
  exact (init_refused_panics_and_undoes_increment BareEngine.fromBytes
           replaceStrict Sprintf_v [runtimeFrame] start (Current start)
           "logger can not be nil" eq_refl eq_refl).
Defined.

Lemma Println_is_Print_plus_newline_without_strings_witness :
  forallb (fun a => negb (isString a)) [VInt 1; VBool true; VNil] = true /\
  exists printed lined,
    delivered (fst (Print [mainFrame] [VInt 1; VBool true; VNil] afterInit))
      = delivered afterInit ++ [printed] /\
    delivered (fst (Println [mainFrame] [VInt 1; VBool true; VNil] afterInit))
      = delivered afterInit ++ [lined] /\
    recMsg lined = (recMsg printed ++ newline)%string.
Proof.
  split; [reflexivity|].
  exact (Println_is_Print_plus_newline_without_strings [mainFrame] [mainFrame]
           [VInt 1; VBool true; VNil] afterInit eq_refl).
Defined.

Lemma layered_entry_after_init_reports_caller_witness :
  GoInt.in_range (staticFuncCallDepth start + 2) /\
  let s' := fst (init fromBytes replaceStrict Sprintf_v [runtimeFrame] start) in
  exists r,
    delivered (fst (callLayered Sprintf_v ViaPanic (mainFrame :: [runtimeFrame])
                      "%v" [VString "x"] s'))
      = delivered s' ++ [r] /\
    reportedLocation (staticFuncCallDepth start) r = At mainFrame.
Proof.
  assert (R : GoInt.in_range (staticFuncCallDepth start + 2))
    by (vm_compute; split; discriminate).
  split; [exact R|].
  exact (layered_entry_after_init_reports_caller fromBytes replaceStrict
           Sprintf_v ViaPanic [runtimeFrame] mainFrame [runtimeFrame]
           "%v" [VString "x"] start R).
Defined.

Lemma forwarding_entry_after_accepted_init_reports_caller_witness :
  forwards LWarn = true /\
  GoInt.in_range (staticFuncCallDepth start + 1) /\
  snd (replaceStrict (fst (fromBytes (bytes_of init_c))) (Current start))
    = None /\
  let s' := fst (init fromBytes replaceStrict Sprintf_v [runtimeFrame] start) in
  (exists r,
     delivered (fst (facadeCall LWarn (mainFrame :: [runtimeFrame])
                       [VString "x"] s')) = delivered s' ++ [r] /\
     reportedLocation (staticFuncCallDepth start) r = At mainFrame) /\
  (exists r,
     delivered (fst (facadeCallf Sprintf_v LWarn (mainFrame :: [runtimeFrame])
                       "%v" [VString "x"] s')) = delivered s' ++ [r] /\
     reportedLocation (staticFuncCallDepth start) r = At mainFrame).
Proof.
  assert (R : GoInt.in_range (staticFuncCallDepth start + 1))
    by (vm_compute; split; discriminate).
  split; [reflexivity|]. split; [exact R|]. split; [reflexivity|].
  exact (forwarding_entry_after_accepted_init_reports_caller fromBytes
           replaceStrict Sprintf_v LWarn [runtimeFrame] mainFrame
           [runtimeFrame] "%v" [VString "x"] start eq_refl R eq_refl).
Defined.
